(** * LSTMLayerNode.h (ELL nodes library): the LSTM layer node and the
      primitive LSTM node it refines into.

    The header declares two class templates over [ValueType]:
    [LSTMLayerNode] (wraps a trained [LSTMLayer], refined before compilation)
    and [LSTMNode] (the compilable primitive).  The member functions defined
    inline in the header are embedded from their bodies.  The members that are
    only declared there ([Reset], [Compute], [Compile], ...) have their bodies
    in a translation unit that is not among the sources; where a property
    needs them they are modelled from the specification, and said so. *)

From Stdlib Require Import String ZArith List Bool Lia.
From Stdlib Require Import Reals Lra.
Import ListNotations.

Set Implicit Arguments.

(** ** utilities *)

Module utilities.

(** Modelled from the spec: utilities/Exception.h is not among the sources.
    The header only throws
    [LogicException(LogicExceptionErrors::notImplemented)]; the spec calls it
    a distinct error kind as opposed to a generic fault, so a thrown value is
    a tagged union: the logic-error kind carries its enumerator, the generic
    kind carries a message. *)
Inductive LogicExceptionErrors : Type :=
| illegalState
| notImplemented.

Inductive Exception : Type :=
| LogicException (e : LogicExceptionErrors)
| GenericException (what : string).

(** Modelled from the spec: utilities::DimensionOrder is declared outside the
    sources.  A dimension order is the ordered list of the dimension indices
    of a buffer; [operator==] compares two orders position by position. *)
Definition DimensionOrder : Type := list Z.

Fixpoint DimensionOrder_eq (a b : DimensionOrder) : bool :=
  match a, b with
  | [], [] => true
  | x :: a', y :: b' => Z.eqb x y && DimensionOrder_eq a' b'
  | _, _ => false
  end.

End utilities.

(** ** A state-and-exception monad for member functions

    A member function runs on the object it is called on (and on the objects
    passed to it by reference) and either returns a value or throws.
    [Returns] and [Throws] both carry the state after the call, so that what
    a failed call leaves behind can be stated. *)

Inductive Outcome (St A : Type) : Type :=
| Returns (a : A) (st : St)
| Throws (e : utilities.Exception) (st : St).

Arguments Returns {St A} a st.
Arguments Throws {St A} e st.

Definition M (St A : Type) : Type := St -> Outcome St A.

Definition ret {St A} (a : A) : M St A := fun st => Returns a st.

Definition throw {St A} (e : utilities.Exception) : M St A :=
  fun st => Throws e st.

Definition bind {St A B} (m : M St A) (k : A -> M St B) : M St B :=
  fun st =>
    match m st with
    | Returns a st' => k a st'
    | Throws e st' => Throws e st'
    end.

Definition get {St} : M St St := fun st => Returns st st.

Notation "x <- m ;; k" := (bind m (fun x => k))
  (at level 61, m at next level, right associativity).

(** ** model *)

Module model.

(** Modelled from the spec: model::PortMemoryLayout is declared outside the
    sources (a shape and a dimension ordering of a flat buffer).
    [GetLogicalDimensionOrder] reads the ordering back. *)
Record PortMemoryLayout : Type := {
  _size : list Z;
  _dimensionOrder : utilities.DimensionOrder
}.

Definition GetLogicalDimensionOrder (l : PortMemoryLayout)
  : utilities.DimensionOrder := _dimensionOrder l.

End model.

(** ** Arithmetic of the element type

    The class templates are instantiated at a numeric [ValueType]; the cell
    only adds and multiplies elements and starts from zero. *)

Class Numeric (V : Type) : Type := {
  vzero : V;
  vadd : V -> V -> V;
  vmul : V -> V -> V
}.

(** Elementwise combination of two vectors (stops with the shorter one). *)
Fixpoint map2 {A B C} (f : A -> B -> C) (u : list A) (v : list B) : list C :=
  match u, v with
  | a :: u', b :: v' => f a b :: map2 f u' v'
  | _, _ => []
  end.

Fixpoint dot {V} `{Numeric V} (u v : list V) : V :=
  match u, v with
  | a :: u', b :: v' => vadd (vmul a b) (dot u' v')
  | _, _ => vzero
  end.

(** Product of a row-major matrix of [rows] rows, stored flat, with the
    vector [v]; every row has [length v] entries. *)
Fixpoint matVec {V} `{Numeric V} (rows : nat) (w v : list V) : list V :=
  match rows with
  | O => []
  | S k => dot (firstn (length v) w) v :: matVec k (skipn (length v) w) v
  end.

(** ** nodes *)

Module nodes.
Import utilities model.

Section Nodes.

(** [template <typename ValueType>] *)
Variable ValueType : Type.
Context `{Numeric ValueType}.

(** Types the header only names: the trained layer wrapped by the layer
    node, the map compiler and the two archivers. *)
Variable LayerType : Type.
Variable MapCompiler : Type.
Variable Archiver : Type.
Variable Unarchiver : Type.

(** [predictors::neural::Activation<ValueType>], applied pointwise. *)
Definition ActivationType : Type := ValueType -> ValueType.

(** *** LSTMLayerNode *)

(** The layer node: the values on its input port and reset port, and the
    layer it wraps. *)
Record LSTMLayerNode : Type := {
  layer_input : list ValueType;
  _reset : Z;
  _layer : LayerType
}.

(** [bool IsCompilable(const model::MapCompiler* compiler) const override
     { return false; }] *)
Definition IsCompilable (compiler : option MapCompiler)
  : M LSTMLayerNode bool :=
  ret false.

(** *** LSTMNode *)

(** The private members of the class: the values on the weight and bias
    ports, the input memory layout and the two activations.  The values on
    [_input] and [_resetTrigger] change with every step and are the arguments
    of a step. *)
Record LSTMNode : Type := {
  _inputWeights : list ValueType;
  _forgetMeWeights : list ValueType;
  _candidateWeights : list ValueType;
  _outputWeights : list ValueType;
  _inputBias : list ValueType;
  _forgetMeBias : list ValueType;
  _candidateBias : list ValueType;
  _outputBias : list ValueType;
  _inputMemoryLayout : PortMemoryLayout;
  _activation : ActivationType;
  _recurrentActivation : ActivationType
}.

(** Modelled from the spec: the cell state entity.  The class declaration
    has no member for it (the state lives with the bodies of [Reset] and
    [Compute], which are not among the sources).  Spec: hidden vector and
    cell vector of equal length, and the previous value of the reset line
    kept for edge detection. *)
Record CellState : Type := {
  hiddenState : list ValueType;
  cellState : list ValueType;
  lastResetValue : Z
}.

(** Modelled from the spec: the state at construction, all zeros. *)
Definition initialState (hiddenSize : nat) : CellState :=
  {| hiddenState := repeat vzero hiddenSize;
     cellState := repeat vzero hiddenSize;
     lastResetValue := 0 |}.

(** The object a member function of [LSTMNode] runs on. *)
Definition Object : Type := (LSTMNode * CellState)%type.

(** [const model::PortMemoryLayout& GetInputMemoryLayout() const
     { return _inputMemoryLayout; }] *)
Definition GetInputMemoryLayout (n : LSTMNode) : PortMemoryLayout :=
  _inputMemoryLayout n.

(** [bool CanAcceptInputLayout(const utilities::DimensionOrder& order) const
     { return GetInputMemoryLayout().GetLogicalDimensionOrder() == order; }] *)
Definition CanAcceptInputLayout (order : DimensionOrder) : M Object bool :=
  this <- get ;;
  ret (DimensionOrder_eq
         (GetLogicalDimensionOrder (GetInputMemoryLayout (fst this))) order).

(** [bool HasState() const override { return true; }] *)
Definition HasState : M Object bool := ret true.

(** [void WriteToArchive(utilities::Archiver& archiver) const override
     { throw utilities::LogicException(
               utilities::LogicExceptionErrors::notImplemented); }]
    The state is the node together with the archiver passed by reference. *)
Definition WriteToArchive : M (Object * Archiver) unit :=
  throw (LogicException notImplemented).

(** [void ReadFromArchive(utilities::Unarchiver& archiver) override
     { throw utilities::LogicException(
               utilities::LogicExceptionErrors::notImplemented); }] *)
Definition ReadFromArchive : M (Object * Unarchiver) unit :=
  throw (LogicException notImplemented).

(** Modelled from the spec: the body of [LSTMNode::Reset] is not among the
    sources.  Spec: clears hidden and cell state vectors to zero. *)
Definition Reset (s : CellState) : CellState :=
  {| hiddenState := map (fun _ => vzero) (hiddenState s);
     cellState := map (fun _ => vzero) (cellState s);
     lastResetValue := lastResetValue s |}.

(** Modelled from the spec: a falling edge of the reset line is a transition
    of its value from non-zero to zero between consecutive steps. *)
Definition fallingEdge (previous current : Z) : bool :=
  negb (Z.eqb previous 0) && Z.eqb current 0.

(** Modelled from the spec: one gate, step 2 of the evaluation contract.  An
    affine combination of the concatenation of the current input and the
    previous hidden state with the gate's weight matrix and bias, then the
    gate's activation. *)
Definition gate (act : ActivationType) (w b : list ValueType)
    (s : CellState) (x : list ValueType) : list ValueType :=
  map act
    (map2 vadd (matVec (length (hiddenState s)) w (x ++ hiddenState s)) b).

Definition inputGate (n : LSTMNode) : CellState -> list ValueType -> list ValueType :=
  gate (_recurrentActivation n) (_inputWeights n) (_inputBias n).

Definition forgetMeGate (n : LSTMNode) : CellState -> list ValueType -> list ValueType :=
  gate (_recurrentActivation n) (_forgetMeWeights n) (_forgetMeBias n).

Definition candidateGate (n : LSTMNode) : CellState -> list ValueType -> list ValueType :=
  gate (_activation n) (_candidateWeights n) (_candidateBias n).

Definition outputGate (n : LSTMNode) : CellState -> list ValueType -> list ValueType :=
  gate (_recurrentActivation n) (_outputWeights n) (_outputBias n).

(** What one step reports: how many times it cleared the state, the state
    the gate computations read, the state it leaves, and the output. *)
Record StepResult : Type := {
  resetCalls : nat;
  priorState : CellState;
  nextState : CellState;
  stepOutput : list ValueType
}.

(** Modelled from the spec: the body of [LSTMNode::Compute] is not among the
    sources.  Spec, evaluation contract:
    1. on a falling edge of the reset line relative to the previous call,
       clear the state before any gate computation;
    2. compute the four gates;
    3. new cell state = retention gate * previous cell state
                        + input gate * candidate gate, elementwise;
    4. new hidden state = output gate * activation(new cell state);
    5. the output is the new hidden state;
    6. the new pair replaces the state. *)
Definition Evaluate (n : LSTMNode) (s : CellState)
    (x : list ValueType) (resetTrigger : Z) : StepResult :=
  let edge := fallingEdge (lastResetValue s) resetTrigger in
  let s0 := if edge then Reset s else s in
  let c := map2 vadd (map2 vmul (forgetMeGate n s0 x) (cellState s0))
                     (map2 vmul (inputGate n s0 x) (candidateGate n s0 x)) in
  let h := map2 vmul (outputGate n s0 x) (map (_activation n) c) in
  {| resetCalls := if edge then 1 else 0;
     priorState := s0;
     nextState := {| hiddenState := h; cellState := c;
                     lastResetValue := resetTrigger |};
     stepOutput := h |}.

(** A run: the steps in order, each from the state the previous one left. *)
Fixpoint Run (n : LSTMNode) (s : CellState)
    (steps : list (list ValueType * Z)) : list StepResult :=
  match steps with
  | [] => []
  | (x, r) :: rest =>
      let res := Evaluate n s x r in res :: Run n (nextState res) rest
  end.

(** The falling edges of a reset sequence, counted per step from the line
    alone: 1 where the value before was non-zero and the value now is zero. *)
Fixpoint edges (previous : Z) (resets : list Z) : list nat :=
  match resets with
  | [] => []
  | r :: rest => (if fallingEdge previous r then 1 else 0) :: edges r rest
  end.

End Nodes.

(** The names of the ports of [LSTMNode], the
    [static constexpr const char*] members of the class, in the order of
    their declaration.  (The [input] and [output] ports have no name constant
    in the class.) *)
Definition inputWeightsPortName : string := "inputWeights".
Definition resetTriggerPortName : string := "resetTrigger".
Definition forgetMeWeightsPortName : string := "forgetMeWeights".
Definition candidateWeightsPortName : string := "candidateWeights".
Definition outputWeightsPortName : string := "outputWeights".
Definition inputBiasPortName : string := "inputBias".
Definition forgetMeBiasPortName : string := "forgetMeBias".
Definition candidateBiasPortName : string := "candidateBias".
Definition outputBiasPortName : string := "outputBias".

Definition portNames : list string :=
  [ inputWeightsPortName; resetTriggerPortName; forgetMeWeightsPortName;
    candidateWeightsPortName; outputWeightsPortName; inputBiasPortName;
    forgetMeBiasPortName; candidateBiasPortName; outputBiasPortName ].

Arguments resetCalls {ValueType} _.
Arguments stepOutput {ValueType} _.
Arguments Reset {ValueType H} s.

End nodes.

(** ** The cell over the real numbers *)

Module reals.
Import utilities model nodes.

#[export] Instance Numeric_R : Numeric R :=
  {| vzero := 0%R; vadd := Rplus; vmul := Rmult |}.

(** Modelled from the spec: the activation library is external.  The
    recurrent activation of the scenario is the logistic sigmoid, the main
    activation the hyperbolic tangent (the standard library's [tanh]). *)
Definition sigmoid (x : R) : R := (1 / (1 + exp (- x)))%R.

Definition layout1 : PortMemoryLayout :=
  {| _size := [1%Z]; _dimensionOrder := [0%Z] |}.

(** A node of hidden size 2 and input size 1 whose gates all have the given
    candidate weights and zeros elsewhere.  A weight matrix has 2 rows of
    1 + 2 entries: the weight of the input, then those of the hidden
    state. *)
Definition nodeWith (candidateWeights : list R) : LSTMNode R :=
  {| _inputWeights := [0; 0; 0; 0; 0; 0]%R;
     _forgetMeWeights := [0; 0; 0; 0; 0; 0]%R;
     _candidateWeights := candidateWeights;
     _outputWeights := [0; 0; 0; 0; 0; 0]%R;
     _inputBias := [0; 0]%R;
     _forgetMeBias := [0; 0]%R;
     _candidateBias := [0; 0]%R;
     _outputBias := [0; 0]%R;
     _inputMemoryLayout := layout1;
     _activation := tanh;
     _recurrentActivation := sigmoid |}.

(** The scenario of the spec: the candidate gate weighs the input by 1 in
    both rows. *)
Definition scenario : LSTMNode R := nodeWith [1; 0; 0; 1; 0; 0]%R.

(** Two vectors agree within a tolerance, entry by entry. *)
Definition within (tol : R) (u v : list R) : Prop :=
  Forall2 (fun a b => (Rabs (a - b) < tol)%R) u v.

End reals.
(** * Properties *)

Import utilities model nodes.

(** ** Auxiliary facts *)

Lemma DimensionOrder_eq_spec (a b : DimensionOrder) :
  DimensionOrder_eq a b = true <-> a = b.
Proof.
  revert b; induction a as [|x a IH]; intros [|y b]; simpl;
    try (split; [discriminate | discriminate]); try tauto.
  rewrite andb_true_iff, Z.eqb_eq, IH.
  split; [intros [-> ->]; reflexivity | intros E; inversion E; auto].
Qed.

Lemma fallingEdge_spec (p r : Z) :
  fallingEdge p r = true <-> p <> 0%Z /\ r = 0%Z.
Proof.
  unfold fallingEdge.
  rewrite andb_true_iff, negb_true_iff, Z.eqb_neq, Z.eqb_eq; tauto.
Qed.

Lemma fallingEdge_same (r : Z) : fallingEdge r r = false.
Proof.
  unfold fallingEdge; destruct (Z.eqb_spec r 0); reflexivity.
Qed.

Lemma map_const_repeat {A B} (b : B) (l : list A) :
  map (fun _ => b) l = repeat b (length l).
Proof.
  induction l as [|a l IH]; simpl; [reflexivity | now rewrite IH].
Qed.

Section NodeFacts.

Variable ValueType : Type.
Context `{Numeric ValueType}.
Variable LayerType : Type.
Variable MapCompiler : Type.
Variable Archiver : Type.
Variable Unarchiver : Type.

Lemma Reset_lastResetValue (s : CellState ValueType) :
  lastResetValue (Reset s) = lastResetValue s.
Proof. reflexivity. Qed.

Lemma Evaluate_lastResetValue (n : LSTMNode ValueType) s x r :
  lastResetValue (nextState (Evaluate n s x r)) = r.
Proof. reflexivity. Qed.

Lemma Run_length (n : LSTMNode ValueType) steps :
  forall s, length (Run n s steps) = length steps.
Proof.
  induction steps as [|[x r] rest IH]; intros s; simpl;
    [reflexivity | now rewrite IH].
Qed.

Lemma Run_resetCalls (n : LSTMNode ValueType) steps :
  forall s,
    map resetCalls (Run n s steps) = edges (lastResetValue s) (map snd steps).
Proof.
  induction steps as [|[x r] rest IH]; intros s; simpl; [reflexivity|].
  rewrite IH; reflexivity.
Qed.

Lemma edges_le_1 (rs : list Z) :
  forall p, Forall (fun c => c <= 1) (edges p rs).
Proof.
  induction rs as [|r rs IH]; intros p; simpl; constructor; auto.
  destruct (fallingEdge p r); lia.
Qed.

Lemma edges_nth (rs : list Z) :
  forall p k, k < length rs ->
    (nth k (edges p rs) 0 = 1 <->
     nth k (p :: rs) 0%Z <> 0%Z /\ nth k rs 0%Z = 0%Z).
Proof.
  induction rs as [|r rs IH]; intros p k Hk; simpl in Hk; [lia|].
  destruct k as [|k].
  - simpl. rewrite <- fallingEdge_spec.
    destruct (fallingEdge p r); split; intros E; auto; discriminate.
  - change (nth (S k) (edges p (r :: rs)) 0) with (nth k (edges r rs) 0).
    change (nth (S k) (p :: r :: rs) 0%Z) with (nth k (r :: rs) 0%Z).
    change (nth (S k) (r :: rs) 0%Z) with (nth k rs 0%Z).
    apply IH; lia.
Qed.

(** ** The layer node *)

(** C10. [IsCompilable] returns false on every layer node and for every
    compiler argument (a null pointer included), and leaves the node as it
    was: the layer node never compiles itself. *)
Theorem LSTMLayerNode_IsCompilable_false :
  forall (this : LSTMLayerNode ValueType LayerType)
         (compiler : option MapCompiler),
    IsCompilable compiler this = Returns false this.
Proof. intros this compiler; reflexivity. Qed.

(** ** The primitive node: member functions defined in the header *)

(** C9. [HasState] returns true on every node, whatever its configuration
    and its current state. *)
Theorem LSTMNode_HasState_true :
  forall this : Object ValueType, HasState this = Returns true this.
Proof. intros this; reflexivity. Qed.

(** C5. [CanAcceptInputLayout] returns normally on every node and every
    candidate order, leaves the node as it was, and its result is true
    exactly when the candidate equals the logical dimension order of the
    node's input memory layout. *)
Theorem CanAcceptInputLayout_iff :
  forall (this : Object ValueType) (order : DimensionOrder),
    exists b : bool,
      CanAcceptInputLayout order this = Returns b this /\
      (b = true <->
       order = GetLogicalDimensionOrder (GetInputMemoryLayout (fst this))).
Proof.
  intros this order.
  exists (DimensionOrder_eq
            (GetLogicalDimensionOrder (GetInputMemoryLayout (fst this))) order).
  split; [reflexivity|].
  rewrite DimensionOrder_eq_spec; split; congruence.
Qed.

(** C4. Writing the primitive node to an archive and reading it from one
    both throw the logic exception [notImplemented], on every node and every
    archiver; that exception is neither a generic one nor the other logic
    error; the node (configuration and state) and the archiver are left as
    they were. *)
Theorem LSTMNode_archive_notImplemented :
  (forall (this : Object ValueType) (archiver : Archiver),
      WriteToArchive (this, archiver)
      = Throws (LogicException notImplemented) (this, archiver)) /\
  (forall (this : Object ValueType) (archiver : Unarchiver),
      ReadFromArchive (this, archiver)
      = Throws (LogicException notImplemented) (this, archiver)) /\
  (forall what, LogicException notImplemented <> GenericException what) /\
  LogicException notImplemented <> LogicException illegalState.
Proof.
  repeat split; intros; try reflexivity; discriminate.
Qed.

(** ** The primitive node: reset and evaluation *)

(** C7. [Reset] leaves the hidden vector and the cell vector all zero (each
    keeps its length), and resetting again changes nothing: any positive
    number of resets in a row leaves the state one reset leaves. *)
Theorem Reset_zero_idempotent :
  forall s : CellState ValueType,
    hiddenState (Reset s) = repeat vzero (length (hiddenState s)) /\
    cellState (Reset s) = repeat vzero (length (cellState s)) /\
    Reset (Reset s) = Reset s /\
    (forall k : nat, Nat.iter (S k) Reset s = Reset s).
Proof.
  intros s.
  assert (Hidem : forall t : CellState ValueType, Reset (Reset t) = Reset t).
  { intros [h c p]; unfold Reset; simpl.
    now rewrite !map_map. }
  repeat split.
  - apply map_const_repeat.
  - apply map_const_repeat.
  - apply Hidem.
  - induction k as [|k IH]; [reflexivity|].
    change (Nat.iter (S (S k)) Reset s)
      with (Reset (Nat.iter (S k) Reset s)).
    now rewrite IH.
Qed.

(** C3. In a step the state is cleared once when the reset line falls
    (its value at the previous step was non-zero and is zero now) and is not
    cleared otherwise; the gate computations then read the cleared state,
    respectively the carried one, and the step records the reset value for
    the next one.  Hence along a run no step clears more than once, step [k]
    clears exactly when the line falls between step [k-1] and step [k], and
    the reset values 1,1,0,0,1,0 clear at the third and the sixth step
    only. *)
Theorem reset_once_per_falling_edge :
  forall (n : LSTMNode ValueType) (s : CellState ValueType),
    (forall x r,
        let res := Evaluate n s x r in
        lastResetValue (nextState res) = r /\
        if fallingEdge (lastResetValue s) r
        then resetCalls res = 1 /\ priorState res = Reset s
        else resetCalls res = 0 /\ priorState res = s) /\
    (forall steps,
        let calls := map resetCalls (Run n s steps) in
        let resets := map snd steps in
        length calls = length steps /\
        Forall (fun c => c <= 1) calls /\
        forall k, k < length steps ->
          (nth k calls 0 = 1 <->
           nth k (lastResetValue s :: resets) 0%Z <> 0%Z /\
           nth k resets 0%Z = 0%Z)) /\
    (forall x1 x2 x3 x4 x5 x6,
        map resetCalls
          (Run n s [(x1, 1%Z); (x2, 1%Z); (x3, 0%Z);
                    (x4, 0%Z); (x5, 1%Z); (x6, 0%Z)])
        = [0; 0; 1; 0; 0; 1]).
Proof.
  intros n s; split; [|split].
  - intros x r; simpl; split; [reflexivity|].
    destruct (fallingEdge (lastResetValue s) r); split; reflexivity.
  - intros steps; cbv zeta.
    split; [now rewrite length_map, Run_length|].
    rewrite Run_resetCalls.
    split; [apply edges_le_1|].
    intros k Hk; apply edges_nth; now rewrite length_map.
  - intros x1 x2 x3 x4 x5 x6.
    rewrite Run_resetCalls; simpl.
    unfold fallingEdge; simpl.
    now rewrite andb_false_r.
Qed.

End NodeFacts.

(** ** The cell over the real numbers *)

Import reals.
Open Scope R_scope.

Lemma sigmoid_0 : sigmoid 0 = 1 / 2.
Proof. unfold sigmoid; rewrite Ropp_0, exp_0; lra. Qed.

Lemma tanh_0 : tanh 0 = 0.
Proof. unfold tanh; rewrite sinh_0; unfold Rdiv; apply Rmult_0_l. Qed.

Lemma within_refl (tol : R) (u : list R) : 0 < tol -> within tol u u.
Proof.
  intros Ht; induction u as [|a u IH]; constructor; [|exact IH].
  now rewrite Rminus_diag, Rabs_R0.
Qed.

(** Unfolding one step of a node of hidden size 2 and input size 1. *)
Ltac step_2_1 :=
  cbv [Evaluate nextState priorState stepOutput resetCalls Reset
       forgetMeGate inputGate candidateGate outputGate gate
       scenario nodeWith
       _activation _recurrentActivation
       _inputWeights _forgetMeWeights _candidateWeights _outputWeights
       _inputBias _forgetMeBias _candidateBias _outputBias
       hiddenState cellState lastResetValue
       map map2 matVec dot firstn skipn length app
       vadd vmul vzero Numeric_R].

Ltac affine_0 :=
  repeat match goal with
  | |- context [0 * ?x + (0 * ?h1 + (0 * ?h2 + 0)) + 0] =>
      replace (0 * x + (0 * h1 + (0 * h2 + 0)) + 0) with 0 by ring
  | |- context [1 * ?x + (0 * ?h1 + (0 * ?h2 + 0)) + 0] =>
      replace (1 * x + (0 * h1 + (0 * h2 + 0)) + 0) with x by ring
  end;
  rewrite ?sigmoid_0, ?tanh_0.

(** The gates of a node with zero input, retention and output weights. *)
Lemma gates_nodeWith (cw : list R) (h1 h2 c1 c2 x : R) (p : Z) :
  let s := {| hiddenState := [h1; h2]; cellState := [c1; c2];
              lastResetValue := p |} in
  inputGate (nodeWith cw) s [x] = [1 / 2; 1 / 2] /\
  forgetMeGate (nodeWith cw) s [x] = [1 / 2; 1 / 2] /\
  outputGate (nodeWith cw) s [x] = [1 / 2; 1 / 2].
Proof.
  step_2_1; affine_0; repeat split; reflexivity.
Qed.

Lemma candidateGate_scenario (h1 h2 c1 c2 x : R) (p : Z) :
  candidateGate scenario
    {| hiddenState := [h1; h2]; cellState := [c1; c2]; lastResetValue := p |}
    [x]
  = [tanh x; tanh x].
Proof.
  step_2_1; affine_0; reflexivity.
Qed.

Lemma Evaluate_update (V : Type) {HV : Numeric V} (n : LSTMNode V)
    (s : CellState V) (x : list V) (r : Z) :
  let res := Evaluate n s x r in
  let p := priorState res in
  cellState (nextState res)
  = map2 vadd (map2 vmul (forgetMeGate n p x) (cellState p))
              (map2 vmul (inputGate n p x) (candidateGate n p x)) /\
  hiddenState (nextState res)
  = map2 vmul (outputGate n p x)
              (map (_activation n) (cellState (nextState res))) /\
  stepOutput res = hiddenState (nextState res).
Proof.
  repeat split; reflexivity.
Qed.

Lemma priorState_after_Reset (V : Type) {HV : Numeric V} (n : LSTMNode V)
    (s : CellState V) (x : list V) (r : Z) :
  priorState (Evaluate n (Reset s) x r) = Reset s.
Proof.
  unfold Evaluate; cbn [priorState].
  destruct (fallingEdge (lastResetValue (Reset s)) r); [|reflexivity].
  destruct s as [h c p]; unfold Reset; simpl; now rewrite !map_map.
Qed.

Lemma tolerance_pos : 0 < 1e-6.
Proof. lra. Qed.

(** C2. Every step computes the new cell state as retention gate times
    previous cell state plus input gate times candidate gate, elementwise,
    the new hidden state as output gate times activation of the new cell
    state, and outputs the new hidden state (the previous state being the one
    the gates read, after the reset check).  For the scenario node (hidden
    size 2, input size 1, candidate input weights 1, all else zero, tanh and
    sigmoid), a step on input 1.0 right after a reset has retention and input
    gates 0.5, candidate gate tanh 1, cell state 0.5*0 + 0.5*tanh 1 and
    output 0.5*tanh(0.5*tanh 1), each within 1e-6, over the reals. *)
Theorem cell_update_and_scenario :
  (forall (V : Type) (HV : Numeric V) (n : LSTMNode V) (s : CellState V)
          (x : list V) (r : Z),
      let res := Evaluate n s x r in
      let p := priorState res in
      cellState (nextState res)
      = map2 vadd (map2 vmul (forgetMeGate n p x) (cellState p))
                  (map2 vmul (inputGate n p x) (candidateGate n p x)) /\
      hiddenState (nextState res)
      = map2 vmul (outputGate n p x)
                  (map (_activation n) (cellState (nextState res))) /\
      stepOutput res = hiddenState (nextState res)) /\
  (forall (s : CellState R) (r : Z),
      length (hiddenState s) = 2%nat ->
      length (cellState s) = 2%nat ->
      let res := Evaluate scenario (Reset s) [1] r in
      let p := priorState res in
      within 1e-6 (forgetMeGate scenario p [1]) [0.5; 0.5] /\
      within 1e-6 (inputGate scenario p [1]) [0.5; 0.5] /\
      within 1e-6 (candidateGate scenario p [1]) [tanh 1; tanh 1] /\
      within 1e-6 (cellState (nextState res))
        [0.5 * 0 + 0.5 * tanh 1; 0.5 * 0 + 0.5 * tanh 1] /\
      within 1e-6 (stepOutput res)
        [0.5 * tanh (0.5 * tanh 1); 0.5 * tanh (0.5 * tanh 1)]).
Proof.
  split; [intros; apply Evaluate_update|].
  intros [h c p0] r Hh Hc; cbn [hiddenState cellState] in Hh, Hc.
  destruct h as [|h1 [|h2 [|h3 h]]]; try discriminate Hh.
  destruct c as [|c1 [|c2 [|c3 c]]]; try discriminate Hc.
  cbv zeta.
  destruct (Evaluate_update scenario
              (Reset {| hiddenState := [h1; h2]; cellState := [c1; c2];
                        lastResetValue := p0 |}) [1] r) as (Ec & Eh & Eo).
  rewrite Eo, Eh, Ec, priorState_after_Reset; clear Ec Eh Eo.
  change (Reset {| hiddenState := [h1; h2]; cellState := [c1; c2];
                   lastResetValue := p0 |})
    with {| hiddenState := [0; 0]; cellState := [0; 0];
            lastResetValue := p0 |}.
  destruct (gates_nodeWith [1; 0; 0; 1; 0; 0] 0 0 0 0 1 p0) as (Ei & Ef & Eg).
  fold scenario in Ei, Ef, Eg; cbv zeta in Ei, Ef, Eg.
  rewrite Ei, Ef, Eg, candidateGate_scenario.
  cbv [map2 map cellState vadd vmul Numeric_R scenario nodeWith _activation].
  replace 0.5 with (1 / 2) by lra.
  replace (1 / 2 * 0 + 1 / 2 * tanh 1) with (1 / 2 * tanh 1) by ring.
  repeat split; apply within_refl, tolerance_pos.
Qed.

(** Witness for C2: the state at construction, reset, then a step with the
    reset line at 1. *)
Lemma cell_update_and_scenario_witness :
  within 1e-6
    (stepOutput (Evaluate scenario (Reset (initialState 2)) [1] 1%Z))
    [0.5 * tanh (0.5 * tanh 1); 0.5 * tanh (0.5 * tanh 1)].
Proof.
  apply (proj2 cell_update_and_scenario (initialState 2) 1%Z);
    reflexivity.
Defined.

(** Witness for C3: the third of three steps with reset values 1, 1, 0
    clears the state, the line having fallen between the second and the
    third. *)
Lemma reset_once_per_falling_edge_witness :
  nth 2
    (map resetCalls
       (Run scenario (initialState 2)
          [([1], 1%Z); ([1], 1%Z); ([1], 0%Z)])) 0%nat = 1%nat <->
  nth 2 (0 :: [1; 1; 0])%Z 0%Z <> 0%Z /\ nth 2 [1; 1; 0]%Z 0%Z = 0%Z.
Proof.
  apply (proj2 (proj2 (proj1 (proj2
           (@reset_once_per_falling_edge R Numeric_R scenario
              (initialState 2)))
           [([1], 1%Z); ([1], 1%Z); ([1], 0%Z)])) 2%nat).
  simpl; lia.
Defined.

(** ** Further properties of the member functions defined in the header *)

Section LayoutFacts.

Variable ValueType : Type.

Lemma CanAcceptInputLayout_run (this : Object ValueType)
    (order : DimensionOrder) :
  CanAcceptInputLayout order this
  = Returns
      (DimensionOrder_eq
         (GetLogicalDimensionOrder (GetInputMemoryLayout (fst this))) order)
      this.
Proof. reflexivity. Qed.

Lemma Returns_inj_value {St A : Type} (a b : A) (st : St) :
  Returns a st = Returns b st <-> a = b.
Proof. split; [intros E; now injection E | now intros ->]. Qed.

(** X2. A node accepts the logical dimension order of its own input memory
    layout, and it accepts no two different orders: exactly one candidate
    order passes the layout negotiation. *)
Theorem CanAcceptInputLayout_exactly_one :
  forall this : Object ValueType,
    CanAcceptInputLayout
      (GetLogicalDimensionOrder (GetInputMemoryLayout (fst this))) this
    = Returns true this /\
    (forall o1 o2 : DimensionOrder,
        CanAcceptInputLayout o1 this = Returns true this ->
        CanAcceptInputLayout o2 this = Returns true this ->
        o1 = o2).
Proof.
  intros this; split.
  - rewrite CanAcceptInputLayout_run; f_equal.
    now apply DimensionOrder_eq_spec.
  - intros o1 o2; rewrite !CanAcceptInputLayout_run, !Returns_inj_value.
    rewrite !DimensionOrder_eq_spec; congruence.
Qed.

(** X3. Two nodes answer every layout query alike exactly when their input
    memory layouts have the same logical dimension order: the answer depends
    on nothing else of a node (not on its weights, biases, activations or
    state, nor on the shape of the layout). *)
Theorem CanAcceptInputLayout_depends_on_order_only :
  forall this1 this2 : Object ValueType,
    (forall (order : DimensionOrder) (b : bool),
        CanAcceptInputLayout order this1 = Returns b this1 <->
        CanAcceptInputLayout order this2 = Returns b this2) <->
    GetLogicalDimensionOrder (GetInputMemoryLayout (fst this1))
    = GetLogicalDimensionOrder (GetInputMemoryLayout (fst this2)).
Proof.
  intros this1 this2; split.
  - intros Hsame.
    destruct (CanAcceptInputLayout_exactly_one this1) as [Hown _].
    apply Hsame in Hown.
    rewrite CanAcceptInputLayout_run, Returns_inj_value in Hown.
    apply DimensionOrder_eq_spec in Hown; congruence.
  - intros E order b.
    rewrite !CanAcceptInputLayout_run, !Returns_inj_value, E; reflexivity.
Qed.

End LayoutFacts.

(** X1. The nine port names of [LSTMNode] are pairwise different, and none
    is empty: a port name identifies one port. *)
Theorem portNames_distinct :
  NoDup portNames /\ ~ In EmptyString portNames.
Proof.
  split.
  - unfold portNames; repeat constructor; simpl;
      intros Hin; repeat destruct Hin as [Hin | Hin];
      try discriminate Hin; exact Hin.
  - simpl; intros Hin; repeat destruct Hin as [Hin | Hin];
      try discriminate Hin; exact Hin.
Qed.

(** Witness for X2: a node whose input layout has order [0] accepts [0]
    twice, and the two accepted orders are the same. *)
Lemma CanAcceptInputLayout_exactly_one_witness :
  ([0%Z] : DimensionOrder) = [0%Z].
Proof.
  apply (proj2 (@CanAcceptInputLayout_exactly_one R
                  (scenario, initialState 2)) [0%Z] [0%Z]);
    reflexivity.
Defined.
